(** * chaotic-web: the request handler of [main.py], its classifier and sanitizer

    A shallow embedding of [src/main.py].  Python's [str] is a sequence of
    Unicode code points, so a string is a list of code points ([N]); the
    built-in string methods the program calls ([strip], [lower], [startswith],
    [in], [split], [join]) are written out as functions on such lists.  The
    two program functions [detect_content_type] and [clean_llm_response], the
    prompt template and the handler [catch_all] follow the source line by
    line. *)

From Stdlib Require Import List NArith ZArith Bool Lia String Ascii.
From Stdlib Require Import DecimalString Floats.
Import ListNotations.

(** [length] is the length of a list throughout. *)
Abbreviation length := List.length (only parsing).

Set Warnings "-register-all".

(** ** Python strings *)

Definition char := N.
Definition str := list char.

(** An ASCII literal of the source as a [str]. *)
Definition py (s : string) : str := map N_of_ascii (list_ascii_of_string s).
Arguments py s%_string.

(** The double quote, spliced into literals that contain one. *)
Definition dq : str := [34%N].

Local Open Scope N_scope.

Fixpoint str_eqb (a b : str) : bool :=
  match a, b with
  | [], [] => true
  | x :: a', y :: b' => (x =? y) && str_eqb a' b'
  | _, _ => false
  end.

(** [str.isspace] on one code point: the white space [str.strip()] removes. *)
Definition isspace (c : char) : bool :=
  ((9 <=? c) && (c <=? 13)) || ((28 <=? c) && (c <=? 32))
  || (c =? 133) || (c =? 160) || (c =? 5760)
  || ((8192 <=? c) && (c <=? 8202))
  || (c =? 8232) || (c =? 8233) || (c =? 8239) || (c =? 8287) || (c =? 12288).

Fixpoint lstrip (s : str) : str :=
  match s with
  | [] => []
  | c :: t => if isspace c then lstrip t else s
  end.

Definition rstrip (s : str) : str := rev (lstrip (rev s)).

(** [s.strip()] *)
Definition strip (s : str) : str := rstrip (lstrip s).

(** [s.startswith(p)] *)
Fixpoint startswith (s p : str) {struct p} : bool :=
  match p, s with
  | [], _ => true
  | _ :: _, [] => false
  | x :: p', y :: s' => (x =? y) && startswith s' p'
  end.

(** [s.find(sub)]: the lowest index at which [sub] occurs, [None] for -1. *)
Fixpoint find (sub s : str) : option nat :=
  if startswith s sub then Some O
  else match s with
       | [] => None
       | _ :: t => option_map S (find sub t)
       end.

(** [sub in s] *)
Definition contains (sub s : str) : bool :=
  match find sub s with Some _ => true | None => false end.

(** [s.split(sep)] for a non-empty [sep]: cut at the leftmost occurrence, go
    on after it.  Each round consumes at least one code point, so [length s]
    rounds are enough. *)
Fixpoint split_fuel (n : nat) (sep s : str) : list str :=
  match n with
  | O => [s]
  | S n' =>
      match find sep s with
      | None => [s]
      | Some i => firstn i s :: split_fuel n' sep (skipn (i + length sep) s)
      end
  end.

Definition split (sep s : str) : list str := split_fuel (length s) sep s.

(** [sep.join(l)] *)
Fixpoint join (sep : str) (l : list str) : str :=
  match l with
  | [] => []
  | [x] => x
  | x :: rest => x ++ sep ++ join sep rest
  end.

(** [x in l] for a list of strings. *)
Definition str_in (x : str) (l : list str) : bool := existsb (str_eqb x) l.

(** ** The sanitizer: [clean_llm_response] (main.py, lines 37-48) *)

Definition fence : str := py "```".
Definition nl : str := [10].

Definition language_tags : list str :=
  [py "html"; py "json"; py "javascript"; py "js"; py "css"; py "python";
   py "xml"].

(** The body of the loop for an odd [i] (lines 43-47).  [lines[0]] raises
    IndexError on an empty list: [None]. *)
Definition code_block (part : str) : option str :=
  let lines := split nl (strip part) in
  match lines with
  | [] => None
  | line0 :: rest =>
      if str_in (strip line0) language_tags then Some (join nl rest)
      else Some (strip part)
  end.

(** [for i, part in enumerate(parts)], from index [i] on; when the loop ends
    without a return, line 48 returns [content]. *)
Fixpoint clean_loop (i : nat) (parts : list str) (content : str) : option str :=
  match parts with
  | [] => Some content
  | part :: rest =>
      if Nat.odd i then code_block part else clean_loop (S i) rest content
  end.

Definition clean_llm_response (content : str) : option str :=
  if contains fence content then clean_loop 0 (split fence content) content
  else Some content.


(** ** Request bodies and [json.dumps]

    What [body] can hold: [None], the value [request.json()] parsed, or the
    decoded text.  A dict keeps its insertion order. *)

Inductive value : Type :=
| VNone
| VBool (b : bool)
| VInt (z : Z)
| VFloat (f : float)
| VStr (s : str)
| VList (items : list value)
| VDict (entries : list (str * value)).

(** Python's truth value, as [if body] and [if query_params] test it. *)
Definition truthy (v : value) : bool :=
  match v with
  | VNone => false
  | VBool b => b
  | VInt z => negb (z =? 0)%Z
  | VFloat f => negb (PrimFloat.eqb f 0%float)
  | VStr s => match s with [] => false | _ => true end
  | VList items => match items with [] => false | _ => true end
  | VDict entries => match entries with [] => false | _ => true end
  end.

Definition hex_digit (n : N) : char := if n <? 10 then 48 + n else 87 + n.

Definition hex4 (n : N) : str :=
  [hex_digit (n / 4096 mod 16); hex_digit (n / 256 mod 16);
   hex_digit (n / 16 mod 16); hex_digit (n mod 16)].

Definition backslash : char := 92.

(** One code point inside a JSON string, [ensure_ascii] being on. *)
Definition escape_char (c : char) : str :=
  if c =? 92 then [backslash; backslash]
  else if c =? 34 then [backslash; 34]
  else if c =? 8 then backslash :: py "b"
  else if c =? 12 then backslash :: py "f"
  else if c =? 10 then backslash :: py "n"
  else if c =? 13 then backslash :: py "r"
  else if c =? 9 then backslash :: py "t"
  else if (32 <=? c) && (c <=? 126) then [c]
  else if c <? 65536 then backslash :: py "u" ++ hex4 c
  else
    let n := c - 65536 in
    backslash :: py "u" ++ hex4 (N.lor 55296 (N.land (N.shiftr n 10) 1023))
    ++ backslash :: py "u" ++ hex4 (N.lor 56320 (N.land n 1023)).

Definition encode_string (s : str) : str := dq ++ flat_map escape_char s ++ dq.

Definition repr_int (z : Z) : str := py (NilZero.string_of_int (Z.to_int z)).

(** A newline and [level] indents of two spaces. *)
Definition newline_indent (level : nat) : str :=
  nl ++ List.concat (repeat (py "  ") level).

(** ** [bytes.decode()]: strict UTF-8; [None] is UnicodeDecodeError. *)

Definition continuation (b : N) : bool := (128 <=? b) && (b <=? 191).

Definition second_of_three (b0 b1 : N) : bool :=
  if b0 =? 224 then (160 <=? b1) && (b1 <=? 191)
  else if b0 =? 237 then (128 <=? b1) && (b1 <=? 159)
  else continuation b1.

Definition second_of_four (b0 b1 : N) : bool :=
  if b0 =? 240 then (144 <=? b1) && (b1 <=? 191)
  else if b0 =? 244 then (128 <=? b1) && (b1 <=? 143)
  else continuation b1.

Fixpoint utf8_decode (bs : list N) : option str :=
  match bs with
  | [] => Some []
  | b0 :: t0 =>
      if b0 <? 128 then option_map (cons b0) (utf8_decode t0)
      else if (194 <=? b0) && (b0 <=? 223) then
        match t0 with
        | b1 :: t1 =>
            if continuation b1
            then option_map (cons ((b0 - 192) * 64 + (b1 - 128)))
                            (utf8_decode t1)
            else None
        | _ => None
        end
      else if (224 <=? b0) && (b0 <=? 239) then
        match t0 with
        | b1 :: b2 :: t2 =>
            if second_of_three b0 b1 && continuation b2
            then option_map
                   (cons ((b0 - 224) * 4096 + (b1 - 128) * 64 + (b2 - 128)))
                   (utf8_decode t2)
            else None
        | _ => None
        end
      else if (240 <=? b0) && (b0 <=? 244) then
        match t0 with
        | b1 :: b2 :: b3 :: t3 =>
            if second_of_four b0 b1 && continuation b2 && continuation b3
            then option_map
                   (cons ((b0 - 240) * 262144 + (b1 - 128) * 4096
                          + (b2 - 128) * 64 + (b3 - 128)))
                   (utf8_decode t3)
            else None
        | _ => None
        end
      else None
  end.

Definition decode (bs : list Byte.byte) : option str :=
  utf8_decode (map Byte.to_N bs).

(** ** The request and the response

    The handler reads a request through [request.method],
    [request.query_params], [await request.json()] and
    [await request.body()].  [req_query_params] is
    [dict(request.query_params)], in the order of the dict.  [req_body] holds
    the bytes of the body.  [req_json] is what [request.json()] does on this
    request: [Some v] when the body parses to [v], [None] when it raises (the
    JSON parser is the framework's and is not reproduced; it reads the bytes
    of [req_body], so it raises on an empty body and on bytes that are no
    text in any encoding).

    A response is kept as the arguments [Response(...)] is built from; the
    status is 200 when the source names none. *)

Record Request : Type := {
  req_method : str;
  req_query_params : list (str * str);
  req_json : option value;
  req_body : list Byte.byte
}.

Record Response : Type := {
  content : str;
  media_type : str;
  status_code : nat
}.

Definition body_methods : list str := [py "POST"; py "PUT"; py "PATCH"].

(** Lines 60-66.  The bare [except] catches whatever [request.json()] raises;
    [None]: [body.decode()] raised inside it, and nothing catches that. *)
Definition get_body (request : Request) : option value :=
  if str_in (req_method request) body_methods then
    match req_json request with
    | Some v => Some v
    | None =>
        match req_body request with
        | [] => Some VNone
        | body => option_map VStr (decode body)
        end
    end
  else Some VNone.

(** The error page of lines 131-176. *)
Definition error_html (full_path message : str) : str :=
  py "<!DOCTYPE html>
<html>
<head>
    <title>Error</title>
    <style>
        body {
            font-family: -apple-system, BlinkMacSystemFont, 'Segoe UI', sans-serif;
            max-width: 600px;
            margin: 100px auto;
            padding: 20px;
            background: linear-gradient(135deg, #667eea 0%, #764ba2 100%);
            min-height: 100vh;
        }
        .error {
            background: white;
            border-radius: 12px;
            padding: 30px;
            box-shadow: 0 20px 60px rgba(0,0,0,0.3);
        }
        h1 { color: #e74c3c; margin: 0 0 20px 0; }
        p { color: #666; line-height: 1.6; }
        a { 
            color: #667eea; 
            text-decoration: none;
            font-weight: 600;
        }
        a:hover { text-decoration: underline; }
        .path { 
            background: #f8f9fa;
            padding: 10px;
            border-radius: 4px;
            font-family: monospace;
            margin: 10px 0;
        }
    </style>
</head>
<body>
    <div class="
  ++ dq
  ++ py "error"
  ++ dq
  ++ py ">
        <h1>"
  ++ [9888]
  ++ [65039]
  ++ py " Generation Failed</h1>
        <p><strong>Path:</strong></p>
        <div class="
  ++ dq
  ++ py "path"
  ++ dq
  ++ py ">/"
  ++ full_path
  ++ py "</div>
        <p><strong>Error:</strong> "
  ++ message
  ++ py "</p>
        <p><a href="
  ++ dq
  ++ py "/"
  ++ dq
  ++ py ">"
  ++ [8592]
  ++ py " Try Homepage</a></p>
    </div>
</body>
</html>".

(** ** The upstream model

    One call is [GenerativeModel('gemini-2.0-flash-exp').generate_content(
    prompt, generation_config=GenerationConfig(temperature=TEMPERATURE))]
    followed by [.text]: it gives a text, or raises an exception [e], kept as
    [str(e)]. *)

Definition TEMPERATURE : float := 0%float.

Record Call : Type := {
  call_model : str;
  call_prompt : str;
  call_temperature : float
}.

Inductive Reply : Type :=
| Text (text : str)
| Failure (message : str).

(** The call the handler makes for a prompt (lines 115-121). *)
Definition call_of (prompt : str) : Call :=
  {| call_model := py "gemini-2.0-flash-exp";
     call_prompt := prompt;
     call_temperature := TEMPERATURE |}.

(** The fixed part of the prompt, after the request (lines 76-111). *)
Definition prompt_rules : str :=
  py "

YOUR TASK:
Analyze the path and generate appropriate content.

RULES:
- If path looks like a webpage (/, /home, /about, etc.) "
  ++ [8594]
  ++ py " generate complete HTML with CSS
- If path suggests API (/api/*, /data/*, *.json) "
  ++ [8594]
  ++ py " generate JSON data
- If path ends in .js "
  ++ [8594]
  ++ py " generate JavaScript code
- If path ends in .css "
  ++ [8594]
  ++ py " generate CSS code
- Return ONLY the content, no explanations or markdown

FOR HTML PAGES - MODERN WEBSITE:
- Use modern frameworks/libraries via CDN (public hosted URLs)
- Can include: Three.js, React, Vue, D3.js, GSAP, anime.js, particles.js, etc.
- Use CDN links like: unpkg.com, cdn.jsdelivr.net, cdnjs.cloudflare.com
- Example: <script src="
  ++ dq
  ++ py "https://unpkg.com/three@0.160.0/build/three.min.js"
  ++ dq
  ++ py "></script>
- Example: <script crossorigin src="
  ++ dq
  ++ py "https://unpkg.com/react@18/umd/react.production.min.js"
  ++ dq
  ++ py "></script>
- Create interactive, animated, beautiful modern UI with gradients, shadows, animations
- Make it functional and engaging with the CDN libraries

IMAGES & MEDIA:
- Always use public hosted images/media from: unsplash.com, picsum.photos, placeholder.com, or other free image services
- Example: https://picsum.photos/800/600 for random images
- Example: https://source.unsplash.com/random/800x600/?nature for themed images
- Never use local paths - only public URLs

ICONS:
- Always use public hosted icon libraries via CDN
- Font Awesome: <link rel="
  ++ dq
  ++ py "stylesheet"
  ++ dq
  ++ py " href="
  ++ dq
  ++ py "https://cdnjs.cloudflare.com/ajax/libs/font-awesome/6.4.0/css/all.min.css"
  ++ dq
  ++ py ">
- Bootstrap Icons: <link rel="
  ++ dq
  ++ py "stylesheet"
  ++ dq
  ++ py " href="
  ++ dq
  ++ py "https://cdn.jsdelivr.net/npm/bootstrap-icons@1.11.0/font/bootstrap-icons.css"
  ++ dq
  ++ py ">
- Or use SVG icons from: heroicons.com, feathericons.com
- Never use local icon files

Be creative, functional, and unpredictable!

Generate now:".

(** ** The vocabulary of the statements *)

(** [t] occurs in [s] as a contiguous piece. *)
Definition infix (t s : str) : Prop := exists a b, s = a ++ t ++ b.

(** The fence written after [x] is the first fence of [x ++ fence]: [x] holds
    none, and none starts in [x] and runs into the one appended. *)
Definition fence_first_after (x : str) : Prop :=
  find fence (x ++ fence) = Some (length x).

(** [blk] is the interior of the first fenced block of [s]: what stands
    between the first fence of [s] and the fence after it, or the end of [s]
    when no fence follows. *)
Definition first_block (s blk : str) : Prop :=
  exists pre,
    fence_first_after pre /\
    ((s = pre ++ fence ++ blk /\ contains fence blk = false)
     \/ (exists post, s = pre ++ fence ++ blk ++ fence ++ post
                      /\ fence_first_after blk)).

(** The five rules as an ordered list: a test on the text, and the MIME type
    and tag of the rule.  The last rule is the default. *)
Definition rule : Type := (str -> bool) * (str * str).

Fixpoint first_match (rules : list rule) (default : str * str) (content : str)
  : str * str :=
  match rules with
  | [] => default
  | (test, result) :: rules' =>
      if test content then result else first_match rules' default content
  end.

(** A code point that is no letter of Latin-1, lowered or not. *)
Definition caseless (c : char) : Prop := c < 65 \/ (122 < c /\ c < 192).

(** A code point that prints in ASCII: from the space to the tilde. *)
Definition printable (c : char) : Prop := (32 <= c /\ c <= 126)%N.

(** ** Sample requests and instances *)

(** The table that leaves every code point from U+0100 on as it is. *)
Definition lower_wide_id : str -> char -> str -> str := fun _ c _ => [c].

(** A float written as 0.0, and a model that answers every call with a page. *)
Definition float_repr_zero : float -> str := fun _ => py "0.0".

Definition model_page : list Call -> Call -> Reply :=
  fun _ _ => Text (py "<html><body>hi</body></html>").

Definition get_about : Request :=
  {| req_method := py "GET";
     req_query_params := [];
     req_json := None;
     req_body := [] |}.

(** A POST whose body is the JSON text of the empty object, and the same
    POST without a body. *)
Definition post_empty_object : Request :=
  {| req_method := py "POST";
     req_query_params := [(py "q", py "1")];
     req_json := Some (VDict []);
     req_body := [Byte.x7b; Byte.x7d] |}.

Definition post_no_body : Request :=
  {| req_method := py "POST";
     req_query_params := [(py "q", py "1")];
     req_json := None;
     req_body := [] |}.

(** The request whose body is the one byte FF: not JSON, and not UTF-8. *)
Definition undecodable_request : Request :=
  {| req_method := py "POST";
     req_query_params := [];
     req_json := None;
     req_body := [Byte.xff] |}.

(** A POST whose body is the text hi: no JSON, and UTF-8. *)
Definition post_text : Request :=
  {| req_method := py "POST";
     req_query_params := [];
     req_json := None;
     req_body := [Byte.x68; Byte.x69] |}.

(** GET /about sent with a body, which the handler does not read. *)
Definition get_about_with_body : Request :=
  {| req_method := py "GET";
     req_query_params := [];
     req_json := Some (VInt 7);
     req_body := [Byte.x37] |}.

(** ** [str.lower()]

    Code points below 256 are lowered by the table of Latin-1 (A-Z and the
    accented capitals U+00C0..U+00DE, U+00D7 apart).  The Unicode table for
    the code points from 256 on is not reproduced: it is the section variable
    [lower_wide], which sees the text before and after the code point (the
    capital sigma is lowered by context) and returns the code points that
    replace it. *)

Definition lower_latin1 (c : char) : char :=
  if ((65 <=? c) && (c <=? 90))
     || ((192 <=? c) && (c <=? 222) && negb (c =? 215))
  then c + 32 else c.


Section Program.

(** The Unicode lower-case table from U+0100 on. *)
Variable lower_wide : str -> char -> str -> str.

(** What [json.dumps] writes for a float ([float.__repr__], or NaN,
    Infinity, -Infinity). *)
Variable float_repr : float -> str.

(** The upstream model: its reply to a call, given the calls made before. *)
Variable gemini : list Call -> Call -> Reply.

(** A proof sees the variables of its statement, and the hypotheses it names. *)
#[local] Set Default Proof Using "Type".

Definition lower_ucs4 (before : str) (c : char) (after : str) : str :=
  if c <? 256 then [lower_latin1 c] else lower_wide before c after.

Fixpoint lower_from (before s : str) : str :=
  match s with
  | [] => []
  | c :: after => lower_ucs4 before c after ++ lower_from (before ++ [c]) after
  end.

(** [s.lower()] *)
Definition lower (s : str) : str := lower_from [] s.

(** ** The classifier: [detect_content_type] (main.py, lines 21-34) *)

Definition is_html (content_lower : str) : bool :=
  startswith content_lower (py "<!doctype html")
  || startswith content_lower (py "<html").

Definition is_json (content_lower : str) : bool :=
  startswith content_lower (py "{") || startswith content_lower (py "[").

Definition is_js (content_lower : str) : bool :=
  contains (py "function") content_lower
  || contains (py "const ") content_lower
  || contains (py "var ") content_lower.

Definition is_css (content content_lower : str) : bool :=
  startswith content_lower (py "@")
  || (contains (py "{") content && contains (py ":") content
      && contains (py ";") content).

Definition detect_content_type (content : str) : str * str :=
  let content_lower := lower (strip content) in
  if is_html content_lower then (py "text/html", py "html")
  else if is_json content_lower then (py "application/json", py "json")
  else if is_js content_lower then (py "application/javascript", py "js")
  else if is_css content content_lower then (py "text/css", py "css")
  else (py "text/plain", py "text").


(** ** [json.dumps(v, indent=2)] *)

Fixpoint dumps (level : nat) (v : value) : str :=
  match v with
  | VNone => py "null"
  | VBool true => py "true"
  | VBool false => py "false"
  | VInt z => repr_int z
  | VFloat f => float_repr f
  | VStr s => encode_string s
  | VList [] => py "[]"
  | VList (x :: xs) =>
      py "[" ++ newline_indent (S level) ++ dumps (S level) x
      ++ (fix items (l : list value) : str :=
            match l with
            | [] => []
            | y :: l' =>
                py "," ++ newline_indent (S level) ++ dumps (S level) y
                ++ items l'
            end) xs
      ++ newline_indent level ++ py "]"
  | VDict [] => py "{}"
  | VDict ((k, x) :: xs) =>
      py "{" ++ newline_indent (S level)
      ++ encode_string k ++ py ": " ++ dumps (S level) x
      ++ (fix entries (l : list (str * value)) : str :=
            match l with
            | [] => []
            | (k', y) :: l' =>
                py "," ++ newline_indent (S level)
                ++ encode_string k' ++ py ": " ++ dumps (S level) y
                ++ entries l'
            end) xs
      ++ newline_indent level ++ py "}"
  end.

Definition json_dumps (v : value) : str := dumps 0 v.

(** ** The prompt (lines 69-111) *)

Definition dict_of (query_params : list (str * str)) : value :=
  VDict (map (fun kv => (fst kv, VStr (snd kv))) query_params).

(** [json.dumps(query_params, indent=2) if query_params else "None"] *)
Definition render_query (query_params : list (str * str)) : str :=
  if truthy (dict_of query_params) then json_dumps (dict_of query_params)
  else py "None".

(** [json.dumps(body, indent=2) if body else "None"] *)
Definition render_body (body : value) : str :=
  if truthy body then json_dumps body else py "None".

Definition build_prompt (method full_path : str)
    (query_params : list (str * str)) (body : value) : str :=
  py "You are a web server. A request has come in and you must generate the appropriate content.

REQUEST:
- Method: "
  ++ method
  ++ py "
- Path: /"
  ++ full_path
  ++ py "
- Query Parameters: "
  ++ render_query query_params
  ++ py "
- Request Body: "
  ++ render_body body
  ++ prompt_rules.

(** ** The handler: [catch_all] (lines 52-177)

    The handler's one effect is the call of the model, so the calls made so
    far are passed in and out.  [None] as a response: an exception left the
    handler. *)

Definition error_response (full_path message : str) : Response :=
  {| content := error_html full_path message;
     media_type := py "text/html";
     status_code := 500 |}.

Definition catch_all (request : Request) (full_path : str)
    (calls : list Call) : option Response * list Call :=
  let method := req_method request in
  let query_params := req_query_params request in
  match get_body request with
  | None => (None, calls)
  | Some body =>
      let prompt := build_prompt method full_path query_params body in
      let call := call_of prompt in
      let calls' := calls ++ [call] in
      match gemini calls call with
      | Text text =>
          match clean_llm_response text with
          | Some content =>
              let (media_type, content_type) := detect_content_type content in
              (Some {| content := content; media_type := media_type;
                       status_code := 200 |}, calls')
          | None =>
              (Some (error_response full_path (py "list index out of range")),
               calls')
          end
      | Failure message => (Some (error_response full_path message), calls')
      end
  end.

(** The rules of the classifier, in its order. *)
Definition rules : list rule :=
  [ (fun content => is_html (lower (strip content)),
     (py "text/html", py "html"));
    (fun content => is_json (lower (strip content)),
     (py "application/json", py "json"));
    (fun content => is_js (lower (strip content)),
     (py "application/javascript", py "js"));
    (fun content => is_css content (lower (strip content)),
     (py "text/css", py "css")) ].

(** The rules in the words of the specification (section 4.2): the four
    tests, each made on the text trimmed and lowered, in the order of the
    list. *)
Definition spec_rules : list rule :=
  [ (fun content =>
       let text := lower (strip content) in
       startswith text (py "<!doctype html") || startswith text (py "<html"),
     (py "text/html", py "html"));
    (fun content =>
       let text := lower (strip content) in
       startswith text (py "{") || startswith text (py "["),
     (py "application/json", py "json"));
    (fun content =>
       let text := lower (strip content) in
       contains (py "function") text || contains (py "const ") text
       || contains (py "var ") text,
     (py "application/javascript", py "js"));
    (fun content =>
       let text := lower (strip content) in
       startswith text (py "@")
       || (contains (py "{") text && contains (py ":") text
           && contains (py ";") text),
     (py "text/css", py "css")) ].

(** What the handler answers to a reply of the model. *)
Definition response_to (full_path : str) (reply : Reply) (response : Response)
  : Prop :=
  match reply with
  | Text text =>
      exists content,
        clean_llm_response text = Some content
        /\ response = {| content := content;
                         media_type := fst (detect_content_type content);
                         status_code := 200 |}
  | Failure message =>
      response = {| content := error_html full_path message;
                    media_type := py "text/html";
                    status_code := 500 |}
      /\ infix (py "/" ++ full_path) (content response)
      /\ infix message (content response)
  end.

(** * Facts about the string methods *)

Local Open Scope nat_scope.

Lemma str_eqb_eq (a b : str) : str_eqb a b = true <-> a = b.
Proof.
  revert b; induction a as [|x a IH]; intros [|y b]; simpl;
    try (split; [discriminate | discriminate]); try (split; reflexivity).
  rewrite andb_true_iff, N.eqb_eq, IH.
  split; [intros [-> ->]; reflexivity | intros E; injection E; auto].
Qed.

Lemma str_eqb_refl (a : str) : str_eqb a a = true.
Proof. now apply str_eqb_eq. Qed.

Lemma infix_refl (s : str) : infix s s.
Proof. exists [], []. now rewrite app_nil_r. Qed.

Lemma infix_trans (t u s : str) : infix t u -> infix u s -> infix t s.
Proof.
  intros (a & b & ->) (c & d & ->).
  exists (c ++ a), (b ++ d). now rewrite !app_assoc.
Qed.

Lemma infix_nil (s : str) : infix [] s.
Proof. now exists [], s. Qed.

(** ** [startswith] *)

Lemma startswith_iff (s p : str) :
  startswith s p = true <-> exists t, s = p ++ t.
Proof.
  revert s; induction p as [|x p IH]; intros s; simpl.
  - split; [intros _; now exists s | reflexivity].
  - destruct s as [|y s].
    + split; [discriminate | intros (t & E); discriminate].
    + rewrite andb_true_iff, N.eqb_eq, IH. split.
      * intros (-> & t & ->). now exists t.
      * intros (t & E). injection E as -> ->. split; [reflexivity | now exists t].
Qed.

Lemma startswith_app (p t : str) : startswith (p ++ t) p = true.
Proof. apply startswith_iff. now exists t. Qed.

(** Only the first [length p] code points of [s] matter. *)
Lemma startswith_app_long (s r p : str) :
  length p <= length s -> startswith (s ++ r) p = startswith s p.
Proof.
  revert s; induction p as [|x p IH]; intros s L; [reflexivity|].
  destruct s as [|y s]; simpl in *; [lia|].
  rewrite IH by lia. reflexivity.
Qed.

(** ** [find] and [in] *)

Lemma find_unfold (sub s : str) :
  find sub s =
  if startswith s sub then Some 0
  else match s with
       | [] => None
       | _ :: t => option_map S (find sub t)
       end.
Proof. destruct s; reflexivity. Qed.

(** [find] returns the place of an occurrence... *)
Lemma find_Some_split (sub s : str) (i : nat) :
  find sub s = Some i ->
  s = firstn i s ++ sub ++ skipn (i + length sub) s /\ i + length sub <= length s.
Proof.
  revert i; induction s as [|c s IH]; intros i; rewrite find_unfold.
  - destruct (startswith [] sub) eqn:E; [|discriminate].
    intros [= <-]. apply startswith_iff in E as (t & E).
    symmetry in E. apply app_eq_nil in E as (-> & ->). now split.
  - destruct (startswith (c :: s) sub) eqn:E.
    + intros [= <-]. apply startswith_iff in E as (t & E).
      rewrite E. simpl.
      rewrite skipn_app, skipn_all, Nat.sub_diag, length_app. simpl.
      split; [reflexivity | lia].
    + destruct (find sub s) as [j|] eqn:F; simpl; [|discriminate].
      intros [= <-]. destruct (IH j eq_refl) as (E1 & E2). simpl.
      split; [now rewrite <- E1 | lia].
Qed.

(** ... and of the leftmost one. *)
Lemma find_least (sub s : str) (i : nat) :
  find sub s = Some i -> forall a b, s = a ++ sub ++ b -> i <= length a.
Proof.
  revert i; induction s as [|c s IH]; intros i; rewrite find_unfold.
  - destruct (startswith [] sub); [intros [= <-]; lia | discriminate].
  - destruct (startswith (c :: s) sub) eqn:E; [intros [= <-]; lia|].
    destruct (find sub s) as [j|] eqn:F; simpl; [|discriminate].
    intros [= <-] a b Hs. destruct a as [|x a].
    + simpl in Hs. rewrite Hs, startswith_app in E. discriminate.
    + injection Hs as -> Hs. simpl. apply le_n_S. now apply (IH j eq_refl a b).
Qed.

Lemma find_complete (sub a b : str) :
  exists i, find sub (a ++ sub ++ b) = Some i /\ i <= length a.
Proof.
  induction a as [|c a (i & Hi & Li)].
  - exists 0. simpl app. rewrite find_unfold, startswith_app. now split.
  - simpl app. rewrite find_unfold. destruct (startswith _ sub).
    + exists 0. split; [reflexivity | lia].
    + exists (S i). rewrite Hi. simpl. split; [reflexivity | lia].
Qed.

Lemma contains_iff (sub s : str) : contains sub s = true <-> infix sub s.
Proof.
  unfold contains, infix. split.
  - destruct (find sub s) as [i|] eqn:F; [|discriminate]. intros _.
    apply find_Some_split in F as (E & _). eauto.
  - intros (a & b & ->). destruct (find_complete sub a b) as (i & -> & _).
    reflexivity.
Qed.

Lemma contains_false_infix (sub t s : str) :
  contains sub s = false -> infix t s -> contains sub t = false.
Proof.
  intros H I. destruct (contains sub t) eqn:C; [|reflexivity].
  apply contains_iff in C. rewrite <- H. symmetry.
  apply contains_iff. eapply infix_trans; eassumption.
Qed.

Lemma contains_find_None (sub s : str) :
  contains sub s = false <-> find sub s = None.
Proof.
  unfold contains. destruct (find sub s); split; congruence.
Qed.

Lemma startswith_refl (s : str) : startswith s s = true.
Proof. apply startswith_iff. exists []. now rewrite app_nil_r. Qed.

Lemma find_cons (sub : str) (c : char) (t : str) :
  find sub (c :: t) =
  if startswith (c :: t) sub then Some 0 else option_map S (find sub t).
Proof. reflexivity. Qed.

Lemma find_nil (sub : str) :
  find sub [] = if startswith [] sub then Some 0 else None.
Proof. reflexivity. Qed.

Lemma option_map_S_eq (o : option nat) (n : nat) :
  option_map S o = Some (S n) <-> o = Some n.
Proof.
  destruct o; simpl; split; intros E; try discriminate;
    injection E as E; now subst.
Qed.

(** An occurrence that [find] reports right after [pre] is still the first
    one when text follows it, and conversely. *)
Lemma find_here_iff (sub pre rest : str) :
  find sub (pre ++ sub ++ rest) = Some (length pre)
  <-> find sub (pre ++ sub) = Some (length pre).
Proof.
  induction pre as [|c pre IH].
  - cbn [app length]. split; intros _.
    + rewrite find_unfold, startswith_refl. reflexivity.
    + rewrite find_unfold, startswith_app. reflexivity.
  - simpl app. simpl length. rewrite !find_cons.
    assert (startswith (c :: pre ++ sub ++ rest) sub
            = startswith (c :: pre ++ sub) sub) as ->.
    { change (c :: pre ++ sub ++ rest) with ((c :: pre) ++ sub ++ rest).
      rewrite app_assoc. apply startswith_app_long.
      simpl. rewrite length_app. lia. }
    destruct (startswith (c :: pre ++ sub) sub); [split; discriminate|].
    now rewrite !option_map_S_eq.
Qed.

(** A block that the next fence closes holds no fence itself. *)
Lemma find_here_free (sub blk : str) :
  sub <> [] -> find sub (blk ++ sub) = Some (length blk) ->
  contains sub blk = false.
Proof.
  intros Hsub F. destruct (contains sub blk) eqn:C; [|reflexivity].
  apply contains_iff in C as (a & b & ->).
  assert (L := find_least _ _ _ F a (b ++ sub)).
  rewrite <- !app_assoc in L. specialize (L eq_refl).
  rewrite !length_app in L. destruct sub; [congruence | simpl in L; lia].
Qed.

(** ** [split] and [join] *)

Lemma split_fuel_enough (sep : str) (n m : nat) (s : str) :
  sep <> [] -> length s <= n -> length s <= m ->
  split_fuel n sep s = split_fuel m sep s.
Proof.
  intros Hsep. revert m s. induction n as [|n IH]; intros m s Ln Lm.
  - destruct s; [|simpl in Ln; lia].
    destruct m; [reflexivity|]. simpl.
    destruct sep; [congruence | reflexivity].
  - simpl. destruct m as [|m].
    + destruct s; [|simpl in Lm; lia].
      destruct sep; [congruence | reflexivity].
    + simpl. destruct (find sep s) as [i|] eqn:F; [|reflexivity].
      f_equal. apply find_Some_split in F as (_ & L).
      assert (0 < length sep) by (destruct sep; [congruence | simpl; lia]).
      apply IH; rewrite length_skipn; lia.
Qed.

Lemma split_unfold (sep s : str) :
  sep <> [] ->
  split sep s =
  match find sep s with
  | None => [s]
  | Some i => firstn i s :: split sep (skipn (i + length sep) s)
  end.
Proof.
  intros Hsep. unfold split. destruct s as [|c s].
  - simpl. destruct sep; [congruence | reflexivity].
  - cbn [List.length split_fuel].
    destruct (find sep (c :: s)) as [i|] eqn:F; [|reflexivity].
    f_equal. apply find_Some_split in F as (_ & L).
    assert (0 < length sep) by (destruct sep; [congruence | simpl; lia]).
    simpl in L.
    apply split_fuel_enough; [assumption | |];
      rewrite length_skipn; cbn [List.length]; lia.
Qed.

Lemma split_not_nil (sep s : str) : split sep s <> [].
Proof.
  unfold split. destruct (length s); simpl; [discriminate|].
  destruct (find sep s); discriminate.
Qed.

Lemma join_cons (sep x : str) (l : list str) :
  l <> [] -> join sep (x :: l) = x ++ sep ++ join sep l.
Proof. destruct l; [congruence | reflexivity]. Qed.

(** Joining the pieces with the separator gives the text back. *)
Lemma join_split (sep s : str) : sep <> [] -> join sep (split sep s) = s.
Proof.
  intros Hsep. remember (length s) as n eqn:Hn.
  revert s Hn. induction n as [n IH] using lt_wf_ind. intros s Hn.
  rewrite split_unfold by assumption.
  destruct (find sep s) as [i|] eqn:F; [|reflexivity].
  rewrite join_cons by apply split_not_nil.
  apply find_Some_split in F as (E & L).
  assert (0 < length sep) by (destruct sep; [congruence | simpl; lia]).
  rewrite (IH (length (skipn (i + length sep) s))); [now rewrite <- E | | reflexivity].
  rewrite length_skipn. lia.
Qed.

(** ** [strip] *)

Lemma lstrip_suffix (s : str) : exists a, s = a ++ lstrip s.
Proof.
  induction s as [|c s (a & E)]; [now exists []|]. simpl.
  destruct (isspace c); [|now exists []].
  exists (c :: a). simpl. now rewrite <- E.
Qed.

Lemma rstrip_prefix (s : str) : exists b, s = rstrip s ++ b.
Proof.
  unfold rstrip. destruct (lstrip_suffix (rev s)) as (a & E).
  exists (rev a). rewrite <- rev_app_distr, <- E. now rewrite rev_involutive.
Qed.

Lemma strip_infix (s : str) : infix (strip s) s.
Proof.
  unfold strip. destruct (lstrip_suffix s) as (a & Ea).
  destruct (rstrip_prefix (lstrip s)) as (b & Eb).
  exists a, b. now rewrite <- Eb.
Qed.

(** * The sanitizer *)

Lemma fence_not_nil : fence <> [].
Proof. discriminate. Qed.

Lemma nl_not_nil : nl <> [].
Proof. discriminate. Qed.

Lemma split_at_first (sep pre rest : str) :
  sep <> [] -> find sep (pre ++ sep) = Some (length pre) ->
  split sep (pre ++ sep ++ rest) = pre :: split sep rest.
Proof.
  intros Hsep F. rewrite split_unfold by assumption.
  apply (find_here_iff sep pre rest) in F. rewrite F.
  rewrite firstn_app, firstn_all, Nat.sub_diag, firstn_0, app_nil_r.
  rewrite app_assoc, <- length_app, skipn_app, skipn_all, Nat.sub_diag.
  reflexivity.
Qed.

Lemma split_free (sep s : str) :
  contains sep s = false -> split sep s = [s].
Proof.
  intros C. apply contains_find_None in C. unfold split.
  destruct (length s); simpl; [reflexivity | now rewrite C].
Qed.

Lemma code_block_total (part : str) : exists t, code_block part = Some t.
Proof.
  unfold code_block. destruct (split nl (strip part)) as [|line0 rest] eqn:E.
  - now apply split_not_nil in E.
  - destruct (str_in (strip line0) language_tags); eauto.
Qed.

(** What the loop body returns is a contiguous piece of the block. *)
Lemma code_block_infix (part t : str) : code_block part = Some t -> infix t part.
Proof.
  unfold code_block. destruct (split nl (strip part)) as [|line0 rest] eqn:E;
    [discriminate|].
  destruct (str_in (strip line0) language_tags); intros [= <-].
  - apply infix_trans with (strip part); [|apply strip_infix].
    assert (J := join_split nl (strip part) nl_not_nil). rewrite E in J.
    destruct rest as [|l rest]; [apply infix_nil|].
    rewrite join_cons in J by discriminate.
    exists (line0 ++ nl), []. now rewrite app_nil_r, <- app_assoc.
  - apply strip_infix.
Qed.

Lemma clean_fence_free (s : str) :
  contains fence s = false -> clean_llm_response s = Some s.
Proof. intros C. unfold clean_llm_response. now rewrite C. Qed.

Lemma clean_fenced (pre rest : str) :
  fence_first_after pre ->
  clean_llm_response (pre ++ fence ++ rest)
  = match split fence rest with
    | [] => Some (pre ++ fence ++ rest)
    | part :: _ => code_block part
    end.
Proof.
  intros F. unfold clean_llm_response.
  assert (contains fence (pre ++ fence ++ rest) = true) as ->
    by (apply contains_iff; now exists pre, rest).
  rewrite split_at_first by (assumption || apply fence_not_nil).
  destruct (split fence rest); reflexivity.
Qed.

Lemma clean_closed_block (pre blk post : str) :
  fence_first_after pre -> fence_first_after blk ->
  clean_llm_response (pre ++ fence ++ blk ++ fence ++ post) = code_block blk.
Proof.
  intros Fp Fb. rewrite clean_fenced by assumption.
  now rewrite split_at_first by (assumption || apply fence_not_nil).
Qed.

Lemma clean_open_block (pre blk : str) :
  fence_first_after pre -> contains fence blk = false ->
  clean_llm_response (pre ++ fence ++ blk) = code_block blk.
Proof.
  intros Fp C. rewrite clean_fenced by assumption.
  now rewrite split_free.
Qed.

(** Every text with a fence reads as: text, the first fence, a block, and
    then either the end of the text or the fence that closes the block. *)
Lemma fenced_shape (s : str) :
  contains fence s = true ->
  exists pre blk,
    fence_first_after pre /\
    ((s = pre ++ fence ++ blk /\ contains fence blk = false)
     \/ (exists post, s = pre ++ fence ++ blk ++ fence ++ post
                      /\ fence_first_after blk)).
Proof.
  unfold contains. destruct (find fence s) as [i|] eqn:F; [intros _|discriminate].
  destruct (find_Some_split _ _ _ F) as (E & L).
  set (pre := firstn i s) in *. set (rest := skipn (i + length fence) s) in *.
  assert (Lp : length pre = i) by (apply firstn_length_le; lia).
  assert (Fp : fence_first_after pre).
  { unfold fence_first_after. apply (find_here_iff fence pre rest).
    now rewrite <- E, Lp. }
  exists pre. destruct (find fence rest) as [j|] eqn:G.
  - destruct (find_Some_split _ _ _ G) as (E' & L').
    exists (firstn j rest). split; [assumption|]. right.
    exists (skipn (j + length fence) rest). split; [now rewrite <- E'|].
    unfold fence_first_after.
    apply (find_here_iff fence _ (skipn (j + length fence) rest)).
    rewrite <- E', G. f_equal. symmetry. apply firstn_length_le. lia.
  - exists rest. split; [assumption|]. left. split; [assumption|].
    now apply contains_find_None.
Qed.

Lemma fence_first_after_free (x : str) :
  fence_first_after x -> contains fence x = false.
Proof. apply find_here_free, fence_not_nil. Qed.

Lemma clean_idem_aux (s t : str) :
  clean_llm_response s = Some t -> contains fence s = true -> contains fence t = false.
Proof.
  intros H C. destruct (fenced_shape s C) as (pre & blk & Fp & [(-> & Cb) | (post & -> & Fb)]).
  - rewrite clean_open_block in H by assumption.
    eapply contains_false_infix; [exact Cb | now apply code_block_infix].
  - rewrite clean_closed_block in H by assumption.
    eapply contains_false_infix;
      [apply fence_first_after_free; exact Fb | now apply code_block_infix].
Qed.

Lemma clean_total (s : str) : exists t, clean_llm_response s = Some t.
Proof.
  destruct (contains fence s) eqn:C.
  - destruct (fenced_shape s C) as (pre & blk & Fp & [(-> & Cb) | (post & -> & Fb)]).
    + rewrite clean_open_block by assumption. apply code_block_total.
    + rewrite clean_closed_block by assumption. apply code_block_total.
  - exists s. now apply clean_fence_free.
Qed.

Lemma first_block_exists (s : str) :
  contains fence s = true -> exists blk, first_block s blk.
Proof.
  intros C. destruct (fenced_shape s C) as (pre & blk & H).
  exists blk, pre. exact H.
Qed.

(** The first block is the segment of index 1 of the split. *)
Lemma first_block_segment (s blk : str) :
  first_block s blk -> nth_error (split fence s) 1 = Some blk.
Proof.
  intros (pre & Fp & [(-> & Cb) | (post & -> & Fb)]);
    rewrite split_at_first by (assumption || apply fence_not_nil).
  - now rewrite split_free.
  - now rewrite split_at_first by (assumption || apply fence_not_nil).
Qed.

Lemma clean_first_block (s blk : str) :
  first_block s blk -> clean_llm_response s = code_block blk.
Proof.
  intros (pre & Fp & [(-> & Cb) | (post & -> & Fb)]).
  - now apply clean_open_block.
  - now apply clean_closed_block.
Qed.

Lemma str_in_iff (x : str) (l : list str) : str_in x l = true <-> In x l.
Proof.
  unfold str_in. rewrite existsb_exists. split.
  - intros (y & Hy & E). apply str_eqb_eq in E. now subst.
  - intros H. exists x. split; [assumption | apply str_eqb_refl].
Qed.

Lemma code_block_tag (blk line0 : str) (lines : list str) :
  split nl (strip blk) = line0 :: lines ->
  In (strip line0) language_tags ->
  code_block blk = Some (join nl lines).
Proof.
  intros E T. unfold code_block. rewrite E.
  apply str_in_iff in T. now rewrite T.
Qed.

Lemma code_block_no_tag (blk line0 : str) (lines : list str) :
  split nl (strip blk) = line0 :: lines ->
  ~ In (strip line0) language_tags ->
  code_block blk = Some (strip blk).
Proof.
  intros E T. unfold code_block. rewrite E.
  destruct (str_in (strip line0) language_tags) eqn:I; [|reflexivity].
  now apply str_in_iff in I.
Qed.

(** C3: a text with a fence has a first fenced block, the segment of index 1
    of the split on the fence; when the first line of that block (the block
    trimmed, then split into lines) is, trimmed, one of the language tags,
    the sanitizer returns the lines after it, joined by newlines. *)
Theorem clean_drops_language_tag (s : str) :
  contains fence s = true ->
  exists blk,
    first_block s blk
    /\ nth_error (split fence s) 1 = Some blk
    /\ forall line0 lines,
         split nl (strip blk) = line0 :: lines ->
         In (strip line0) language_tags ->
         clean_llm_response s = Some (join nl lines).
Proof.
  intros C. destruct (first_block_exists s C) as (blk & B).
  exists blk. split; [assumption|]. split; [now apply first_block_segment|].
  intros line0 lines E T. rewrite (clean_first_block s blk B).
  now apply code_block_tag with line0.
Qed.

(** C3, on the text of the spec: the fenced paragraph tagged [html] comes
    back without its fence and its tag line. *)
Lemma clean_drops_language_tag_witness :
  clean_llm_response
    (py "```html" ++ nl ++ py "<p>hi</p>" ++ nl ++ py "```")
  = Some (py "<p>hi</p>").
Proof.
  destruct (clean_drops_language_tag
              (py "```html" ++ nl ++ py "<p>hi</p>" ++ nl ++ py "```")
              eq_refl) as (blk & _ & S1 & H).
  vm_compute in S1. injection S1 as <-.
  apply (H (py "html") [py "<p>hi</p>"]).
  - vm_compute. reflexivity.
  - left. reflexivity.
Defined.

(** C4: of a text with a fence only the first fenced block counts: the result
    is a piece of that block, two texts with the same first block give the
    same result whatever stands before and after it, and when the block's
    first line is not a language tag the result is the whole block, trimmed. *)
Theorem clean_only_first_block (s blk : str) :
  first_block s blk ->
  (forall s', first_block s' blk -> clean_llm_response s' = clean_llm_response s)
  /\ (exists t, clean_llm_response s = Some t /\ infix t blk)
  /\ forall line0 lines,
       split nl (strip blk) = line0 :: lines ->
       ~ In (strip line0) language_tags ->
       clean_llm_response s = Some (strip blk).
Proof.
  intros B. rewrite (clean_first_block s blk B). repeat split.
  - intros s' B'. now apply clean_first_block.
  - destruct (code_block_total blk) as (t & E). exists t.
    split; [assumption | now apply code_block_infix].
  - intros line0 lines E T. now apply code_block_no_tag with line0 lines.
Qed.

(** C4, on the text of the spec: a fenced block with no tag comes back whole,
    trimmed. *)
Lemma clean_only_first_block_witness :
  clean_llm_response
    (py "```" ++ nl ++ py "{" ++ dq ++ py "a" ++ dq ++ py ":1}" ++ nl ++ py "```")
  = Some (py "{" ++ dq ++ py "a" ++ dq ++ py ":1}").
Proof.
  refine (proj2 (proj2 (clean_only_first_block
            (py "```" ++ nl ++ py "{" ++ dq ++ py "a" ++ dq ++ py ":1}" ++ nl ++ py "```")
            (nl ++ py "{" ++ dq ++ py "a" ++ dq ++ py ":1}" ++ nl) _))
          (py "{" ++ dq ++ py "a" ++ dq ++ py ":1}") [] _ _).
  - exists []. split; [reflexivity|]. right. exists []. split; reflexivity.
  - reflexivity.
  - vm_compute. intros H.
    repeat (destruct H as [H|H]; [discriminate H|]). exact H.
Defined.

(** C7: a text without a fence is returned as it is. *)
Theorem clean_identity_without_fence (s : str) :
  contains fence s = false -> clean_llm_response s = Some s.
Proof. apply clean_fence_free. Qed.

Lemma clean_identity_without_fence_witness :
  clean_llm_response (py "<p>a `b` c</p>") = Some (py "<p>a `b` c</p>").
Proof. apply clean_identity_without_fence. reflexivity. Defined.

(** C9: the sanitizer always returns, and sanitizing its result again changes
    nothing: the result of a text with a fence holds no fence, and a text
    without a fence is returned as it is. *)
Theorem clean_idempotent (s : str) :
  exists t,
    clean_llm_response s = Some t
    /\ clean_llm_response t = Some t
    /\ (contains fence s = true -> contains fence t = false).
Proof.
  destruct (clean_total s) as (t & E). exists t. split; [assumption|].
  destruct (contains fence s) eqn:C.
  - assert (F := clean_idem_aux s t E C).
    split; [now apply clean_fence_free | auto].
  - rewrite (clean_fence_free s C) in E. injection E as <-.
    split; [now apply clean_fence_free | discriminate].
Qed.

(** * The classifier *)

Lemma first_match_nth (rules : list rule) (default : str * str) (content : str)
    (n : nat) (test : str -> bool) (result : str * str) :
  nth_error rules n = Some (test, result) ->
  test content = true ->
  (forall m r, m < n -> nth_error rules m = Some r -> fst r content = false) ->
  first_match rules default content = result.
Proof.
  revert n. induction rules as [|[t r] rules IH]; intros n E T Before.
  - destruct n; discriminate.
  - destruct n as [|n]; simpl in *.
    + injection E as -> ->. now rewrite T.
    + assert (Ht : t content = false)
        by (apply (Before 0%nat (t, r)); [lia | reflexivity]).
      rewrite Ht.
      apply (IH n); [assumption..|].
      intros m q Lm Em. apply (Before (S m) q); [lia | assumption].
Qed.

Lemma first_match_none (rules : list rule) (default : str * str) (content : str) :
  (forall r, In r rules -> fst r content = false) ->
  first_match rules default content = default.
Proof.
  induction rules as [|[t r] rules IH]; intros H; [reflexivity|]. simpl.
  assert (Ht : t content = false) by (apply (H (t, r)); now left).
  rewrite Ht. apply IH. intros q Hq. apply H. now right.
Qed.

Lemma detect_first_match (content : str) :
  detect_content_type content
  = first_match rules (py "text/plain", py "text") content.
Proof. reflexivity. Qed.

Local Open Scope N_scope.

Lemma lower_cons_narrow (c : char) (t : str) :
  c < 256 -> lower (c :: t) = lower_latin1 c :: lower_from [c] t.
Proof.
  intros L. unfold lower. simpl. unfold lower_ucs4.
  apply N.ltb_lt in L. now rewrite L.
Qed.

Lemma startswith_cons (c x : char) (r p : str) :
  startswith (c :: r) (x :: p) = (x =? c) && startswith r p.
Proof. reflexivity. Qed.

Lemma startswith_single (s : str) (x : char) :
  startswith s [x] = match s with [] => false | y :: _ => x =? y end.
Proof. destruct s; simpl; [reflexivity | apply andb_true_r]. Qed.

Lemma is_json_cons (c : char) (r : str) :
  is_json (c :: r) = (123 =? c) || (91 =? c).
Proof.
  unfold is_json. change (py "{") with [123]. change (py "[") with [91].
  now rewrite !startswith_single.
Qed.

Lemma is_html_cons (c : char) (r : str) : c <> 60 -> is_html (c :: r) = false.
Proof.
  intros H. unfold is_html.
  change (py "<!doctype html") with (60 :: py "!doctype html").
  change (py "<html") with (60 :: py "html").
  rewrite !startswith_cons.
  assert ((60 =? c) = false) as -> by (apply N.eqb_neq; congruence).
  reflexivity.
Qed.

(** C2: a text that, trimmed, starts with an opening brace or bracket is
    JSON, whatever else it holds: the JSON test comes before the one for
    JavaScript.  The result is always that of the first rule of [rules]
    whose test holds, and the default when none does. *)
Theorem json_before_javascript (s : str) :
  (startswith (strip s) (py "{") = true \/ startswith (strip s) (py "[") = true ->
   detect_content_type s = (py "application/json", py "json"))
  /\ (forall n test result,
        nth_error rules n = Some (test, result) ->
        test s = true ->
        (forall m r, (m < n)%nat -> nth_error rules m = Some r -> fst r s = false) ->
        detect_content_type s = result)
  /\ ((forall r, In r rules -> fst r s = false) ->
      detect_content_type s = (py "text/plain", py "text")).
Proof.
  split; [|split].
  - intros H. unfold detect_content_type.
    change (py "{") with [123] in H. change (py "[") with [91] in H.
    rewrite !startswith_single in H.
    destruct (strip s) as [|c t]; [destruct H; discriminate|].
    assert (Hc : c = 123 \/ c = 91)
      by (destruct H as [H|H]; apply N.eqb_eq in H; auto).
    rewrite lower_cons_narrow by (destruct Hc; subst; reflexivity).
    assert (lower_latin1 c = c) as -> by (destruct Hc; subst; reflexivity).
    rewrite is_html_cons by (destruct Hc; subst; discriminate).
    rewrite is_json_cons.
    assert ((123 =? c) || (91 =? c) = true) as ->; [|reflexivity].
    destruct Hc; subst; reflexivity.
  - intros n test result E T B. rewrite detect_first_match.
    now apply first_match_nth with n test.
  - intros H. rewrite detect_first_match. now apply first_match_none.
Qed.

(** What is assumed of the Unicode table: lowering a code point from U+0100
    on gives at least one code point, and none of ASCII but small letters
    (U+0130 gives [i] and a combining dot, U+212A gives [k]). *)
Hypothesis lower_wide_letters :
  forall before c after d,
    256 <= c ->
    lower_wide before c after <> []
    /\ (In d (lower_wide before c after) -> 128 <= d \/ (97 <= d /\ d <= 122)).

Lemma lower_latin1_at (c : char) : (64 =? lower_latin1 c) = (64 =? c).
Proof.
  unfold lower_latin1.
  destruct (((65 <=? c) && (c <=? 90)) || ((192 <=? c) && (c <=? 222) && negb (c =? 215))) eqn:E;
    [|reflexivity].
  destruct (N.eqb_spec 64 (c + 32)), (N.eqb_spec 64 c); try reflexivity.
  - assert (c = 32) by lia. subst. discriminate E.
  - subst. discriminate E.
Qed.

Lemma lower_startswith_at (x : str) :
  startswith (lower x) (py "@") = startswith x (py "@").
Proof using lower_wide_letters.
  change (py "@") with [64]. rewrite !startswith_single.
  destruct x as [|c t]; [reflexivity|].
  unfold lower. cbn [lower_from]. unfold lower_ucs4.
  destruct (N.ltb_spec c 256) as [L|L]; cbn [app].
  - apply lower_latin1_at.
  - destruct (lower_wide_letters [] c t 0 L) as (Hne & _).
    destruct (lower_wide [] c t) as [|d ds] eqn:E; [congruence|]. cbn [app].
    destruct (lower_wide_letters [] c t d L) as (_ & Hd).
    rewrite E in Hd. specialize (Hd (or_introl eq_refl)).
    destruct (N.eqb_spec 64 d), (N.eqb_spec 64 c); try reflexivity; lia.
Qed.

(** C6: when the tests for HTML, JSON and JavaScript fail, the text is CSS
    exactly when, trimmed, it starts with an at sign, or it holds a brace, a
    colon and a semicolon; in every other case it is plain text. *)
Theorem css_or_plain (s : str) :
  is_html (lower (strip s)) = false ->
  is_json (lower (strip s)) = false ->
  is_js (lower (strip s)) = false ->
  detect_content_type s
  = if startswith (strip s) (py "@")
       || (contains (py "{") s && contains (py ":") s && contains (py ";") s)
    then (py "text/css", py "css")
    else (py "text/plain", py "text").
Proof using lower_wide_letters.
  intros H1 H2 H3. unfold detect_content_type.
  rewrite H1, H2, H3. unfold is_css. now rewrite lower_startswith_at.
Qed.

(** * The handler *)

Lemma infix_head (t b : str) : infix t (t ++ b).
Proof. now exists [], b. Qed.

Lemma infix_app_r (t a s : str) : infix t s -> infix t (a ++ s).
Proof. intros (x & y & ->). exists (a ++ x), y. now rewrite app_assoc. Qed.

(** Look for the piece behind the literals and variables the text is built
    of, from the left. *)
Ltac infix_descend :=
  first [ apply infix_head | apply infix_app_r; infix_descend ].

(** The same, for a piece that starts inside a literal, after [pre]. *)
Ltac infix_after pre :=
  repeat first [ solve [exists pre; eexists; reflexivity]
               | apply infix_app_r ].

Lemma error_html_path (full_path message : str) :
  infix (py "/" ++ full_path) (error_html full_path message).
Proof.
  unfold error_html.
  infix_after (py ">").
Qed.

Lemma error_html_message (full_path message : str) :
  infix message (error_html full_path message).
Proof. unfold error_html. infix_descend. Qed.

(** [get_body] raises on the requests with a body that is neither JSON nor
    UTF-8, and on no other. *)
Lemma get_body_raises_iff (request : Request) :
  get_body request = None
  <-> str_in (req_method request) body_methods = true
      /\ req_json request = None
      /\ decode (req_body request) = None.
Proof.
  unfold get_body, body_methods.
  destruct (str_in (req_method request) _); [|split; [discriminate | intros (? & _); discriminate]].
  destruct (req_json request) as [v|];
    [split; [discriminate | intros (_ & ? & _); discriminate]|].
  destruct (req_body request) as [|b bs]; [split; [discriminate | intros (_ & _ & ?); discriminate]|].
  destruct (decode (b :: bs)); simpl; split; try discriminate; auto.
  intros (_ & _ & ?); discriminate.
Qed.

(** When the body is read without an exception, the handler calls the model
    once, with the prompt of the request, and answers by its reply: 200 with
    the sanitized text and its detected type, or 500 with the error page. *)
Lemma catch_all_responds (request : Request) (full_path : str)
    (calls : list Call) (body : value) :
  get_body request = Some body ->
  let call := call_of (build_prompt (req_method request) full_path
                         (req_query_params request) body) in
  exists response,
    catch_all request full_path calls = (Some response, calls ++ [call])
    /\ response_to full_path (gemini calls call) response.
Proof.
  intros B call. subst call. unfold catch_all, call_of.
  rewrite B. cbv zeta. unfold response_to.
  destruct (gemini calls _) as [text|message].
  - destruct (clean_total text) as (content & C). rewrite C.
    destruct (detect_content_type content) as [m t] eqn:D.
    eexists. split; [reflexivity|]. exists content. split; [reflexivity|].
    now rewrite D.
  - eexists. split; [reflexivity|]. split; [reflexivity|]. simpl.
    split; [apply error_html_path | apply error_html_message].
Qed.

(** C1 (code): on the request with the undecodable body the handler raises
    before it calls the model: no response, and no call. *)
Theorem catch_all_undecodable_body (full_path : str) (calls : list Call) :
  catch_all undecodable_request full_path calls = (None, calls).
Proof. reflexivity. Qed.

(** ** The prompt *)

Lemma render_query_empty : render_query [] = py "None".
Proof. reflexivity. Qed.

Lemma render_body_falsy (v : value) : truthy v = false -> render_body v = py "None".
Proof. intros H. unfold render_body. now rewrite H. Qed.

Lemma prompt_query_none (method full_path : str) (body : value) :
  infix (py "Query Parameters: None") (build_prompt method full_path [] body).
Proof.
  unfold build_prompt. rewrite render_query_empty.
  infix_after (py "
- ").
Qed.

Lemma prompt_body_none (method full_path : str)
    (query_params : list (str * str)) (body : value) :
  truthy body = false ->
  infix (py "Request Body: None")
        (build_prompt method full_path query_params body).
Proof.
  intros H. unfold build_prompt. rewrite (render_body_falsy body H).
  infix_after (py "
- ").
Qed.

Lemma prompt_method (method full_path : str)
    (query_params : list (str * str)) (body : value) :
  infix (py "Method: " ++ method)
        (build_prompt method full_path query_params body).
Proof.
  unfold build_prompt.
  change (py "You are a web server. A request has come in and you must generate the appropriate content.

REQUEST:
- Method: ")
    with (py "You are a web server. A request has come in and you must generate the appropriate content.

REQUEST:
- " ++ py "Method: ").
  rewrite <- app_assoc. apply infix_app_r.
  rewrite app_assoc. apply infix_head.
Qed.

Lemma prompt_path (method full_path : str)
    (query_params : list (str * str)) (body : value) :
  infix (py "Path: /" ++ full_path)
        (build_prompt method full_path query_params body).
Proof.
  unfold build_prompt. infix_after (py "
- ").
Qed.

Lemma get_body_other_method (request : Request) :
  str_in (req_method request) body_methods = false ->
  get_body request = Some VNone.
Proof. intros H. unfold get_body. fold body_methods. now rewrite H. Qed.

(** C8: the prompt the handler sends for GET /about with no query holds the
    method, the path, and None for the query and for the body; whatever the
    request, an empty query and an absent body are written None. *)
Theorem prompt_none_markers :
  (forall request calls,
     req_method request = py "GET" -> req_query_params request = [] ->
     exists call,
       snd (catch_all request (py "about") calls) = calls ++ [call]
       /\ contains (py "Method: GET") (call_prompt call) = true
       /\ contains (py "Path: /about") (call_prompt call) = true
       /\ contains (py "Query Parameters: None") (call_prompt call) = true
       /\ contains (py "Request Body: None") (call_prompt call) = true)
  /\ (forall method full_path body,
        render_query [] = py "None"
        /\ contains (py "Query Parameters: None")
             (build_prompt method full_path [] body) = true)
  /\ (forall method full_path query_params,
        render_body VNone = py "None"
        /\ contains (py "Request Body: None")
             (build_prompt method full_path query_params VNone) = true).
Proof.
  split; [|split].
  - intros request calls M Q.
    assert (B : get_body request = Some VNone)
      by (apply get_body_other_method; now rewrite M).
    destruct (catch_all_responds request (py "about") calls VNone B)
      as (response & E & _).
    rewrite M, Q in E. eexists. rewrite E. split; [reflexivity|].
    cbn [call_prompt call_of].
    split; [|split; [|split]]; apply contains_iff.
    + apply (prompt_method (py "GET")).
    + apply (prompt_path (py "GET") (py "about")).
    + apply prompt_query_none.
    + now apply prompt_body_none.
  - intros method full_path body. split; [reflexivity|].
    apply contains_iff, prompt_query_none.
  - intros method full_path query_params. split; [reflexivity|].
    apply contains_iff. now apply prompt_body_none.
Qed.

(** C10: a POST, PUT or PATCH body that parses to a value Python takes for
    false is written None in the prompt, and the handler does with the request
    what it does with the same request without a body. *)
Theorem falsy_body_is_none :
  (forall v,
     In v [VStr []; VDict []; VList []; VInt 0; VBool false; VNone] ->
     truthy v = false)
  /\ (forall request v full_path calls,
        str_in (req_method request) body_methods = true ->
        req_json request = Some v ->
        truthy v = false ->
        get_body request = Some v
        /\ render_body v = py "None"
        /\ contains (py "Request Body: None")
             (build_prompt (req_method request) full_path
                (req_query_params request) v) = true
        /\ forall request',
             req_method request' = req_method request ->
             req_query_params request' = req_query_params request ->
             req_json request' = None ->
             req_body request' = [] ->
             catch_all request' full_path calls
             = catch_all request full_path calls).
Proof.
  split.
  - intros v H. simpl in H.
    repeat (destruct H as [<-|H]; [reflexivity|]). destruct H.
  - intros request v full_path calls M J T.
    assert (B : get_body request = Some v)
      by (unfold get_body; fold body_methods; now rewrite M, J).
    split; [assumption|]. split; [now apply render_body_falsy|].
    split; [apply contains_iff; now apply prompt_body_none|].
    intros request' M' Q' J' B'.
    unfold catch_all. rewrite B.
    unfold get_body. fold body_methods. rewrite M', M, J', B', Q'.
    unfold build_prompt.
    rewrite (render_body_falsy v T). reflexivity.
Qed.

(** ** The rules as the specification words them *)

Local Open Scope N_scope.

Lemma contains_single (c : char) (s : str) :
  contains [c] s = existsb (N.eqb c) s.
Proof.
  unfold contains. induction s as [|x t IH]; [reflexivity|].
  rewrite find_cons, startswith_single. cbn [existsb].
  destruct (c =? x); [reflexivity|]. cbn [orb]. rewrite <- IH.
  now destruct (find [c] t).
Qed.

Lemma existsb_lstrip (c : char) (s : str) :
  isspace c = false ->
  existsb (N.eqb c) (lstrip s) = existsb (N.eqb c) s.
Proof.
  intros Hc. induction s as [|x t IH]; [reflexivity|]. cbn [lstrip].
  destruct (isspace x) eqn:Hx; [|reflexivity]. cbn [existsb].
  rewrite IH. destruct (N.eqb_spec c x); [congruence | reflexivity].
Qed.

Lemma existsb_rev (f : char -> bool) (s : str) :
  existsb f (rev s) = existsb f s.
Proof.
  induction s as [|x t IH]; [reflexivity|]. cbn [rev existsb].
  rewrite existsb_app, IH. cbn [existsb]. rewrite orb_false_r. apply orb_comm.
Qed.

Lemma existsb_strip (c : char) (s : str) :
  isspace c = false ->
  existsb (N.eqb c) (strip s) = existsb (N.eqb c) s.
Proof.
  intros Hc. unfold strip, rstrip.
  rewrite existsb_rev, existsb_lstrip by assumption.
  now rewrite existsb_rev, existsb_lstrip.
Qed.

Lemma lower_latin1_caseless (c x : char) :
  caseless c -> (c =? lower_latin1 x) = (c =? x).
Proof.
  unfold caseless, lower_latin1. intros Hc.
  destruct (((65 <=? x) && (x <=? 90)) || ((192 <=? x) && (x <=? 222) && negb (x =? 215))) eqn:E;
    [|reflexivity].
  assert (Hx : (65 <= x /\ x <= 90) \/ (192 <= x /\ x <= 222)).
  { apply orb_true_iff in E as [E|E].
    - apply andb_true_iff in E as (A & B).
      apply N.leb_le in A, B. lia.
    - apply andb_true_iff in E as (E & _). apply andb_true_iff in E as (A & B).
      apply N.leb_le in A, B. lia. }
  destruct (N.eqb_spec c (x + 32)), (N.eqb_spec c x); try reflexivity; lia.
Qed.

Lemma existsb_lower_from (c : char) (before s : str) :
  caseless c -> c < 128 ->
  existsb (N.eqb c) (lower_from before s) = existsb (N.eqb c) s.
Proof using lower_wide_letters.
  intros Hc Ha. revert before. induction s as [|x t IH]; intros before;
    [reflexivity|].
  cbn [lower_from existsb]. rewrite existsb_app, IH. f_equal.
  unfold lower_ucs4. destruct (N.ltb_spec x 256) as [L|L].
  - cbn [existsb]. rewrite orb_false_r. now apply lower_latin1_caseless.
  - assert ((c =? x) = false) as -> by (apply N.eqb_neq; lia).
    destruct (existsb (N.eqb c) (lower_wide before x t)) eqn:E;
      [|first [reflexivity | exact E]]. exfalso.
    apply existsb_exists in E as (d & Hd & Ed). apply N.eqb_eq in Ed. subst d.
    destruct (lower_wide_letters before x t c L) as (_ & H).
    specialize (H Hd). unfold caseless in Hc. lia.
Qed.

Lemma contains_normalised (c : char) (s : str) :
  caseless c -> c < 128 -> isspace c = false ->
  contains [c] (lower (strip s)) = contains [c] s.
Proof using lower_wide_letters.
  intros Hc Ha Hs. rewrite !contains_single. unfold lower.
  now rewrite existsb_lower_from, existsb_strip.
Qed.

(** The classifier computes what the rules of the specification, tried in
    their order, give; the brace, the colon and the semicolon of the fourth
    rule are looked for in the raw text, where they stand when and only when
    they stand in the text trimmed and lowered. *)
Lemma detect_refines_spec_rules (content : str) :
  detect_content_type content
  = first_match spec_rules (py "text/plain", py "text") content.
Proof using lower_wide_letters.
  unfold detect_content_type, spec_rules, first_match, is_css.
  change (py "{") with [123]. change (py ":") with [58].
  change (py ";") with [59].
  rewrite !contains_normalised
    by (reflexivity || (unfold caseless; lia)).
  reflexivity.
Qed.

(** * More on the string methods *)

Lemma lstrip_fixed (c : char) (t : str) :
  isspace c = false -> lstrip (c :: t) = c :: t.
Proof. intros H. cbn [lstrip]. now rewrite H. Qed.

(** What [lstrip] leaves is empty or starts with a code point that is no
    white space. *)
Lemma lstrip_head (s : str) :
  lstrip s = [] \/ exists c t, lstrip s = c :: t /\ isspace c = false.
Proof.
  induction s as [|x s IH]; [now left|]. cbn [lstrip].
  destruct (isspace x) eqn:E; [exact IH|]. right. now exists x, s.
Qed.

Lemma lstrip_idem (s : str) : lstrip (lstrip s) = lstrip s.
Proof.
  destruct (lstrip_head s) as [-> | (c & t & -> & H)]; [reflexivity|].
  now apply lstrip_fixed.
Qed.

Lemma lstrip_app_last (a : str) (c : char) :
  isspace c = false -> lstrip (a ++ [c]) = lstrip a ++ [c].
Proof.
  intros H. induction a as [|x a IH]; cbn [app lstrip].
  - now rewrite H.
  - destruct (isspace x); [exact IH | reflexivity].
Qed.

Lemma rstrip_cons (c : char) (t : str) :
  isspace c = false -> rstrip (c :: t) = c :: rstrip t.
Proof.
  intros H. unfold rstrip. cbn [rev].
  rewrite lstrip_app_last by assumption.
  now rewrite rev_app_distr.
Qed.

Lemma rstrip_idem (s : str) : rstrip (rstrip s) = rstrip s.
Proof. unfold rstrip. now rewrite rev_involutive, lstrip_idem. Qed.

(** Trimming a trimmed text changes nothing. *)
Lemma strip_idem (s : str) : strip (strip s) = strip s.
Proof.
  unfold strip. destruct (lstrip_head s) as [-> | (c & t & -> & H)];
    [reflexivity|].
  rewrite rstrip_cons by assumption. rewrite lstrip_fixed by assumption.
  rewrite <- rstrip_cons by assumption. apply rstrip_idem.
Qed.

Lemma lstrip_app_fixed (x y : str) :
  lstrip x = x -> x <> [] -> lstrip (x ++ y) = x ++ y.
Proof.
  destruct x as [|c x]; [congruence|]. intros H _. cbn [app lstrip] in *.
  destruct (isspace c); [|reflexivity].
  exfalso. destruct (lstrip_suffix x) as (a & E).
  rewrite H in E. apply (f_equal (@List.length char)) in E.
  rewrite length_app in E. cbn [List.length] in E. lia.
Qed.

(** White space is only removed at the end: a text whose end stays as it is
    keeps it behind any other text. *)
Lemma rstrip_app_fixed (a b : str) :
  rstrip b = b -> b <> [] -> rstrip (a ++ b) = a ++ b.
Proof.
  unfold rstrip. intros H Hb. rewrite rev_app_distr.
  assert (Hr : lstrip (rev b) = rev b).
  { apply (f_equal (@rev char)) in H. now rewrite rev_involutive in H. }
  rewrite lstrip_app_fixed; [now rewrite <- rev_app_distr, rev_involutive | assumption |].
  intros E. apply (f_equal (@rev char)) in E. rewrite rev_involutive in E.
  now subst.
Qed.

Lemma app_not_nil_r (a b : str) : b <> [] -> a ++ b <> [].
Proof. intros H E. apply app_eq_nil in E as (_ & E). congruence. Qed.

(** The first piece of a split is a prefix of the text. *)
Lemma split_head_prefix (sep s line0 : str) (lines : list str) :
  sep <> [] -> split sep s = line0 :: lines -> exists rest, s = line0 ++ rest.
Proof.
  intros Hsep E. assert (J := join_split sep s Hsep). rewrite E in J.
  destruct lines as [|l lines].
  - exists []. cbn [join] in J. now rewrite app_nil_r.
  - rewrite join_cons in J by discriminate. eauto.
Qed.

(** * More on the sanitizer *)

Lemma clean_infix (s t : str) :
  clean_llm_response s = Some t -> infix t s.
Proof.
  intros E. destruct (contains fence s) eqn:C.
  - destruct (fenced_shape s C)
      as (pre & blk & Fp & [(-> & Cb) | (post & -> & Fb)]).
    + rewrite clean_open_block in E by assumption.
      apply infix_trans with blk; [now apply code_block_infix|].
      exists (pre ++ fence), []. now rewrite app_nil_r, <- app_assoc.
    + rewrite clean_closed_block in E by assumption.
      apply infix_trans with blk; [now apply code_block_infix|].
      exists (pre ++ fence), (fence ++ post). now rewrite <- !app_assoc.
  - rewrite clean_fence_free in E by assumption. injection E as <-.
    apply infix_refl.
Qed.

(** X1: the sanitizer invents nothing: what it returns is a contiguous piece
    of the text it was given. *)
Theorem clean_returns_piece (s t : str) :
  clean_llm_response s = Some t -> infix t s.
Proof. apply clean_infix. Qed.

(** X2: when the first line of the first block is a language tag, the
    sanitizer removes that line and the newline after it and nothing else of
    the trimmed block; a block that is the tag line alone gives the empty
    text. *)
Theorem clean_drops_one_line (s blk line0 : str) (lines : list str) :
  first_block s blk ->
  split nl (strip blk) = line0 :: lines ->
  In (strip line0) language_tags ->
  exists t,
    clean_llm_response s = Some t
    /\ (lines = [] -> t = [] /\ strip blk = line0)
    /\ (lines <> [] -> strip blk = line0 ++ nl ++ t).
Proof.
  intros B E T. exists (join nl lines).
  rewrite (clean_first_block s blk B).
  split; [now apply code_block_tag with line0|].
  assert (J := join_split nl (strip blk) nl_not_nil). rewrite E in J.
  split.
  - intros ->. split; [reflexivity | now symmetry].
  - intros H. rewrite join_cons in J by assumption. now symmetry.
Qed.

(** X3: a first line that is no language tag stays: the result is the
    trimmed block, it starts with that line, and trimming it again changes
    nothing. *)
Theorem clean_keeps_unknown_first_line (s blk line0 : str) (lines : list str) :
  first_block s blk ->
  split nl (strip blk) = line0 :: lines ->
  ~ In (strip line0) language_tags ->
  exists rest,
    clean_llm_response s = Some (line0 ++ rest)
    /\ line0 ++ rest = strip blk
    /\ strip (line0 ++ rest) = line0 ++ rest.
Proof.
  intros B E T.
  destruct (split_head_prefix nl (strip blk) line0 lines nl_not_nil E)
    as (rest & R).
  exists rest. rewrite <- R. split; [|split; [reflexivity | apply strip_idem]].
  rewrite (clean_first_block s blk B).
  now apply code_block_no_tag with line0 lines.
Qed.

(** * More on the classifier *)

Local Open Scope N_scope.

Lemma lower_from_narrow (before p rest : str) :
  Forall (fun c => c < 256) p ->
  lower_from before (p ++ rest)
  = map lower_latin1 p ++ lower_from (before ++ p) rest.
Proof.
  intros H. revert before. induction H as [|c p Hc Hp IH]; intros before.
  - now rewrite app_nil_r.
  - cbn [app lower_from map]. unfold lower_ucs4.
    apply N.ltb_lt in Hc. rewrite Hc. cbn [app]. f_equal.
    rewrite IH, <- app_assoc. reflexivity.
Qed.

Lemma detect_html_prefix (s p rest : str) :
  strip s = p ++ rest ->
  Forall (fun c => c < 256) p ->
  map lower_latin1 p = py "<!doctype html" \/ map lower_latin1 p = py "<html" ->
  detect_content_type s = (py "text/html", py "html").
Proof.
  intros S N L. unfold detect_content_type.
  assert (H : is_html (lower (strip s)) = true); [|now rewrite H].
  unfold lower. rewrite S, lower_from_narrow by assumption.
  unfold is_html. apply orb_true_iff.
  destruct L as [-> | ->]; [left | right]; apply startswith_app.
Qed.

(** X4: a text that, trimmed, starts with the doctype or with the html tag,
    in capitals, small letters or both, is HTML: the first test is made on
    the lowered text. *)
Theorem html_in_any_case (s p rest : str) :
  strip s = p ++ rest ->
  Forall (fun c => c < 256) p ->
  map lower_latin1 p = py "<!doctype html" \/ map lower_latin1 p = py "<html" ->
  detect_content_type s = (py "text/html", py "html").
Proof. apply detect_html_prefix. Qed.

(** X5: white space around the text does not count: the trimmed text is
    classified as the text is. *)
Theorem detect_ignores_outer_space (s : str) :
  detect_content_type (strip s) = detect_content_type s.
Proof.
  unfold detect_content_type, is_css. rewrite strip_idem.
  change (py "{") with [123]. change (py ":") with [58].
  change (py ";") with [59].
  rewrite !contains_single, !existsb_strip by reflexivity. reflexivity.
Qed.

Lemma detect_range (s : str) :
  In (detect_content_type s)
     [ (py "text/html", py "html"); (py "application/json", py "json");
       (py "application/javascript", py "js"); (py "text/css", py "css");
       (py "text/plain", py "text") ].
Proof.
  unfold detect_content_type.
  destruct (is_html _); [now left|].
  destruct (is_json _); [right; now left|].
  destruct (is_js _); [do 2 right; now left|].
  destruct (is_css _ _); [do 3 right; now left | do 4 right; now left].
Qed.

(** * More on the handler *)

Local Open Scope nat_scope.



(** X8: a response is 200 with one of the five types of the classifier, or
    500 with text/html; the handler gives no other. *)
Theorem catch_all_response_range (request : Request) (full_path : str)
    (calls : list Call) (response : Response) :
  fst (catch_all request full_path calls) = Some response ->
  (status_code response = 200
   /\ In (media_type response)
        [py "text/html"; py "application/json"; py "application/javascript";
         py "text/css"; py "text/plain"])
  \/ (status_code response = 500 /\ media_type response = py "text/html").
Proof.
  intros E. destruct (get_body request) as [body|] eqn:B.
  - destruct (catch_all_responds request full_path calls body B) as (r & Er & R).
    rewrite Er in E. cbn [fst] in E. injection E as ->.
    unfold response_to in R.
    destruct (gemini calls _) as [text|message].
    + destruct R as (content & _ & ->). left. split; [reflexivity|].
      cbn [media_type].
      assert (D := detect_range content).
      destruct (detect_content_type content) as [m t].
      cbn [fst]. cbn [In] in D |- *.
      repeat (destruct D as [D|D]; [injection D as <- _; auto 6|]).
      destruct D.
    + destruct R as (-> & _). right. split; reflexivity.
  - unfold catch_all in E. rewrite B in E. discriminate E.
Qed.

(** X9: the handler reads a body for POST, PUT and PATCH only: two requests
    with another method, the same method and the same query are treated
    alike, whatever their bodies. *)
Theorem catch_all_ignores_body (request request' : Request) (full_path : str)
    (calls : list Call) :
  str_in (req_method request) body_methods = false ->
  req_method request' = req_method request ->
  req_query_params request' = req_query_params request ->
  catch_all request' full_path calls = catch_all request full_path calls.
Proof.
  intros M M' Q'. unfold catch_all.
  rewrite (get_body_other_method request M).
  rewrite (get_body_other_method request') by now rewrite M'.
  now rewrite M', Q'.
Qed.

Lemma strip_error_html (full_path message : str) :
  strip (error_html full_path message) = error_html full_path message.
Proof.
  unfold strip.
  assert (L : lstrip (error_html full_path message)
              = error_html full_path message) by reflexivity.
  rewrite L. unfold error_html.
  repeat (apply rstrip_app_fixed;
          [|solve [repeat apply app_not_nil_r; discriminate]]).
  reflexivity.
Qed.

(** X10: the error page is HTML for the classifier too, whatever the path and
    the message: the type the handler gives it is the one the classifier
    would. *)
Theorem error_page_is_html (full_path message : str) :
  detect_content_type (error_html full_path message)
  = (py "text/html", py "html").
Proof.
  apply detect_html_prefix
    with (p := py "<!DOCTYPE html")
         (rest := skipn 14 (error_html full_path message)).
  - rewrite strip_error_html. reflexivity.
  - repeat constructor.
  - left. reflexivity.
Qed.

Local Open Scope N_scope.

Lemma option_map_cons_not_nil (x : char) (o : option str) (t : str) :
  option_map (cons x) o = Some t -> t <> [].
Proof. destruct o; simpl; intros [= <-]; discriminate. Qed.

(** Bytes that decode, and are some, decode to some text. *)
Lemma utf8_decode_not_nil (b : N) (bs : list N) (t : str) :
  utf8_decode (b :: bs) = Some t -> t <> [].
Proof.
  cbn [utf8_decode].
  destruct (b <? 128); [apply option_map_cons_not_nil|].
  destruct ((194 <=? b) && (b <=? 223)).
  { destruct bs as [|b1 t1]; [discriminate|].
    destruct (continuation b1); [apply option_map_cons_not_nil | discriminate]. }
  destruct ((224 <=? b) && (b <=? 239)).
  { destruct bs as [|b1 [|b2 t2]]; try discriminate.
    destruct (second_of_three b b1 && continuation b2);
      [apply option_map_cons_not_nil | discriminate]. }
  destruct ((240 <=? b) && (b <=? 244)); [|discriminate].
  destruct bs as [|b1 [|b2 [|b3 t3]]]; try discriminate.
  destruct (second_of_four b b1 && continuation b2 && continuation b3);
    [apply option_map_cons_not_nil | discriminate].
Qed.

Lemma hex_digit_printable (n : N) : n < 16 -> printable (hex_digit n).
Proof.
  unfold printable, hex_digit. intros H.
  destruct (N.ltb_spec n 10); lia.
Qed.

Lemma hex4_printable (n : N) : Forall printable (hex4 n).
Proof.
  unfold hex4.
  repeat constructor; apply hex_digit_printable; apply N.mod_lt; discriminate.
Qed.

Ltac printable_literal :=
  vm_compute;
  repeat (apply Forall_cons; [split; discriminate|]); apply Forall_nil.

Lemma escape_char_printable (c : char) : Forall printable (escape_char c).
Proof.
  unfold escape_char, backslash.
  destruct (c =? 92); [printable_literal|].
  destruct (c =? 34); [printable_literal|].
  destruct (c =? 8); [printable_literal|].
  destruct (c =? 12); [printable_literal|].
  destruct (c =? 10); [printable_literal|].
  destruct (c =? 13); [printable_literal|].
  destruct (c =? 9); [printable_literal|].
  destruct ((32 <=? c) && (c <=? 126)) eqn:R.
  { apply andb_true_iff in R as (A & B). apply N.leb_le in A, B.
    repeat constructor; assumption. }
  change (py "u") with [117]. cbn [app].
  destruct (c <? 65536); cbv zeta.
  - do 2 (constructor; [unfold printable; lia|]). apply hex4_printable.
  - do 2 (constructor; [unfold printable; lia|]).
    apply Forall_app. split; [apply hex4_printable|].
    do 2 (constructor; [unfold printable; lia|]). apply hex4_printable.
Qed.

Lemma encode_string_printable (s : str) : Forall printable (encode_string s).
Proof.
  unfold encode_string, dq. constructor; [unfold printable; lia|].
  apply Forall_app. split; [|repeat constructor; unfold printable; lia].
  induction s as [|c s IH]; [constructor|]. cbn [flat_map].
  apply Forall_app. split; [apply escape_char_printable | exact IH].
Qed.

(** X11: a POST, PUT or PATCH body that is no JSON and is UTF-8 reaches the
    prompt as its text: the text is not empty, so it is never written None,
    and it is written as one quoted string of printable ASCII, with no
    newline in it. *)
Theorem text_body_is_quoted (request : Request) (text : str) :
  str_in (req_method request) body_methods = true ->
  req_json request = None ->
  req_body request <> [] ->
  decode (req_body request) = Some text ->
  get_body request = Some (VStr text)
  /\ text <> []
  /\ render_body (VStr text) = dq ++ flat_map escape_char text ++ dq
  /\ Forall printable (render_body (VStr text)).
Proof.
  intros M J B D. unfold get_body. rewrite M, J.
  destruct (req_body request) as [|b bs] eqn:E; [congruence|].
  rewrite D. split; [reflexivity|].
  assert (T : text <> []).
  { unfold decode in D. cbn [map] in D. now apply utf8_decode_not_nil in D. }
  split; [assumption|].
  assert (R : render_body (VStr text) = encode_string text).
  { unfold render_body. destruct text; [congruence | reflexivity]. }
  rewrite R. split; [reflexivity | apply encode_string_printable].
Qed.

(** X12: reading the body raises on the requests with a method that carries a
    body, a body that is no JSON, and bytes that are no UTF-8, and on no
    other request. *)
Theorem get_body_raises_exactly (request : Request) :
  get_body request = None
  <-> str_in (req_method request) body_methods = true
      /\ req_json request = None
      /\ decode (req_body request) = None.
Proof. apply get_body_raises_iff. Qed.

(** X13: every prompt holds the method after [Method: ], the path after
    [Path: /], and the query and the body as they are rendered. *)
Theorem prompt_holds_request (method full_path : str)
    (query_params : list (str * str)) (body : value) :
  infix (py "Method: " ++ method)
        (build_prompt method full_path query_params body)
  /\ infix (py "Path: /" ++ full_path)
           (build_prompt method full_path query_params body)
  /\ infix (py "Query Parameters: " ++ render_query query_params)
           (build_prompt method full_path query_params body)
  /\ infix (py "Request Body: " ++ render_body body)
           (build_prompt method full_path query_params body).
Proof.
  split; [apply prompt_method|]. split; [apply prompt_path|].
  unfold build_prompt. split; infix_after (py "
- ").
Qed.

(** X14: the classifier gives what the four rules of the specification give,
    each made on the text trimmed and lowered and tried in their order, with
    plain text when none holds. *)
Theorem detect_follows_spec_rules (content : str) :
  detect_content_type content
  = first_match spec_rules (py "text/plain", py "text") content.
Proof using lower_wide_letters. now apply detect_refines_spec_rules. Qed.

Local Open Scope nat_scope.



End Program.

(** * The statements on sample inputs *)

Lemma lower_wide_id_letters (before : str) (c : char) (after : str) (d : char) :
  (256 <= c)%N ->
  lower_wide_id before c after <> []
  /\ (In d (lower_wide_id before c after) ->
      (128 <= d)%N \/ (97 <= d /\ d <= 122)%N).
Proof.
  intros L. split; [discriminate|]. intros [<- | []]. left. lia.
Qed.

(** C2, on a text that is JSON by its first character and holds every
    JavaScript marker. *)
Lemma json_before_javascript_witness :
  detect_content_type lower_wide_id
    (py "  {" ++ dq ++ py "function" ++ dq ++ py ": " ++ dq
     ++ py "const x; var y" ++ dq ++ py "}")
  = (py "application/json", py "json")
  /\ is_js (lower lower_wide_id
              (strip (py "  {" ++ dq ++ py "function" ++ dq ++ py ": " ++ dq
                      ++ py "const x; var y" ++ dq ++ py "}"))) = true.
Proof.
  split; [|reflexivity].
  apply (proj1 (json_before_javascript lower_wide_id _)).
  left. reflexivity.
Defined.

(** C6, on the two texts of the spec. *)
Lemma css_or_plain_witness :
  detect_content_type lower_wide_id (py "@media screen { color: red; }")
  = (py "text/css", py "css")
  /\ detect_content_type lower_wide_id (py "hello world")
     = (py "text/plain", py "text").
Proof.
  split.
  - rewrite (css_or_plain lower_wide_id lower_wide_id_letters
               (py "@media screen { color: red; }")); reflexivity.
  - rewrite (css_or_plain lower_wide_id lower_wide_id_letters
               (py "hello world")); reflexivity.
Defined.

(** C8, on the request GET /about. *)
Lemma prompt_none_markers_witness :
  exists call,
    snd (catch_all lower_wide_id float_repr_zero model_page
           get_about (py "about") []) = [] ++ [call]
    /\ contains (py "Method: GET") (call_prompt call) = true
    /\ contains (py "Path: /about") (call_prompt call) = true
    /\ contains (py "Query Parameters: None") (call_prompt call) = true
    /\ contains (py "Request Body: None") (call_prompt call) = true.
Proof.
  apply (proj1 (prompt_none_markers lower_wide_id float_repr_zero model_page)
           get_about []); reflexivity.
Defined.

(** C10, on a POST of the empty object. *)
Lemma falsy_body_is_none_witness :
  get_body post_empty_object = Some (VDict [])
  /\ render_body float_repr_zero (VDict []) = py "None"
  /\ catch_all lower_wide_id float_repr_zero model_page
       post_no_body (py "api/items") []
     = catch_all lower_wide_id float_repr_zero model_page
         post_empty_object (py "api/items") [].
Proof.
  destruct (proj2 (falsy_body_is_none lower_wide_id float_repr_zero model_page)
              post_empty_object (VDict []) (py "api/items") []
              eq_refl eq_refl eq_refl) as (B & R & _ & H).
  split; [exact B|]. split; [exact R|].
  apply H; reflexivity.
Defined.

(** C5 (code): reading the body of the request with the undecodable body
    raises: the fallback [body.decode()] is not guarded. *)
Theorem get_body_undecodable : get_body undecodable_request = None.
Proof. reflexivity. Qed.

(** * The further statements on sample inputs *)

(** X1, on the fenced paragraph. *)
Lemma clean_returns_piece_witness :
  infix (py "<p>hi</p>")
        (py "```html" ++ nl ++ py "<p>hi</p>" ++ nl ++ py "```").
Proof. apply clean_returns_piece. reflexivity. Defined.

(** X2, on a block tagged json. *)
Lemma clean_drops_one_line_witness :
  exists t,
    clean_llm_response (py "```json" ++ nl ++ py "{}" ++ nl ++ py "```") = Some t
    /\ ([py "{}"] = [] -> t = [] /\ strip (py "json" ++ nl ++ py "{}" ++ nl) = py "json")
    /\ ([py "{}"] <> [] ->
        strip (py "json" ++ nl ++ py "{}" ++ nl) = py "json" ++ nl ++ t).
Proof.
  apply (clean_drops_one_line
           (py "```json" ++ nl ++ py "{}" ++ nl ++ py "```")
           (py "json" ++ nl ++ py "{}" ++ nl) (py "json") [py "{}"]).
  - exists []. split; [reflexivity|]. right. exists []. split; reflexivity.
  - reflexivity.
  - right. left. reflexivity.
Defined.

(** X3, on a block whose first line is a tag the list does not hold. *)
Lemma clean_keeps_unknown_first_line_witness :
  exists rest,
    clean_llm_response
      (py "Here: ```typescript" ++ nl ++ py "let x" ++ nl ++ py "``` done")
    = Some (py "typescript" ++ rest)
    /\ py "typescript" ++ rest = strip (py "typescript" ++ nl ++ py "let x" ++ nl)
    /\ strip (py "typescript" ++ rest) = py "typescript" ++ rest.
Proof.
  apply (clean_keeps_unknown_first_line
           (py "Here: ```typescript" ++ nl ++ py "let x" ++ nl ++ py "``` done")
           (py "typescript" ++ nl ++ py "let x" ++ nl)
           (py "typescript") [py "let x"]).
  - exists (py "Here: "). split; [reflexivity|]. right.
    exists (py " done"). split; reflexivity.
  - reflexivity.
  - vm_compute. intros H.
    repeat (destruct H as [H|H]; [discriminate H|]). exact H.
Defined.

(** X4, on a doctype in capitals behind white space. *)
Lemma html_in_any_case_witness :
  detect_content_type lower_wide_id
    (nl ++ py "  <!DOCTYPE HTML><p>x</p> ")
  = (py "text/html", py "html").
Proof.
  apply (html_in_any_case lower_wide_id
           (nl ++ py "  <!DOCTYPE HTML><p>x</p> ")
           (py "<!DOCTYPE HTML") (py "><p>x</p>")).
  - reflexivity.
  - repeat constructor.
  - left. reflexivity.
Defined.


(** X8, on the request GET /about. *)
Lemma catch_all_response_range_witness :
  (status_code {| content := py "<html><body>hi</body></html>";
                  media_type := py "text/html";
                  status_code := 200 |} = 200%nat
   /\ In (media_type {| content := py "<html><body>hi</body></html>";
                        media_type := py "text/html";
                        status_code := 200 |})
        [py "text/html"; py "application/json"; py "application/javascript";
         py "text/css"; py "text/plain"])
  \/ (status_code {| content := py "<html><body>hi</body></html>";
                     media_type := py "text/html";
                     status_code := 200 |} = 500%nat
      /\ media_type {| content := py "<html><body>hi</body></html>";
                       media_type := py "text/html";
                       status_code := 200 |} = py "text/html").
Proof.
  apply (catch_all_response_range lower_wide_id float_repr_zero model_page
           get_about (py "about") []).
  reflexivity.
Defined.

(** X9, on GET /about with and without a body. *)
Lemma catch_all_ignores_body_witness :
  catch_all lower_wide_id float_repr_zero model_page
    get_about_with_body (py "about") []
  = catch_all lower_wide_id float_repr_zero model_page
      get_about (py "about") [].
Proof.
  apply (catch_all_ignores_body lower_wide_id float_repr_zero model_page
           get_about get_about_with_body); reflexivity.
Defined.

(** X11, on a POST of the text hi. *)
Lemma text_body_is_quoted_witness :
  get_body post_text = Some (VStr (py "hi"))
  /\ py "hi" <> []
  /\ render_body float_repr_zero (VStr (py "hi"))
     = dq ++ flat_map escape_char (py "hi") ++ dq
  /\ Forall printable (render_body float_repr_zero (VStr (py "hi"))).
Proof.
  apply (text_body_is_quoted float_repr_zero post_text (py "hi"));
    try reflexivity.
  discriminate.
Defined.

(** X14, on a style sheet. *)
Lemma detect_follows_spec_rules_witness :
  detect_content_type lower_wide_id (py "body { color: red; }")
  = first_match (spec_rules lower_wide_id) (py "text/plain", py "text")
      (py "body { color: red; }").
Proof.
  apply (detect_follows_spec_rules lower_wide_id).
  intros before c after d. apply lower_wide_id_letters.
Defined.

